(** * px-totp: the setuptools configuration script [setup.py]

    The script has three statements: [import setuptools], a [with open]
    block that reads [README.md] into [LONG_DESCRIPTION], and one call of
    [setuptools.setup].  It is embedded as a program of a small monad that
    threads the interpreter state (the table of file objects and the trace
    of observable effects) and propagates Python exceptions.  Unlike a
    state monad stacked on an error monad, a raising computation keeps the
    state it reached: effects that happened before the raise stay in the
    trace.

    A [string] is a sequence of 8-bit characters.  It stands for the bytes
    of a file as they are, and for a Python [str] through its UTF-8
    encoding. *)

From Stdlib Require Import String Ascii List Bool Arith Lia.
Import ListNotations.
Local Open Scope string_scope.
Local Open Scope list_scope.

(** ** Exceptions *)

Inductive exn : Type :=
| ModuleNotFoundError (module : string)
| FileNotFoundError (path : string)
| IsADirectoryError (path : string)
| PermissionError (path : string)
| UnicodeDecodeError
| ValueError (msg : string)
| SystemExit (msg : string)
| DistutilsError (msg : string).

Inductive result (A : Type) : Type :=
| Ok (a : A)
| Raise (e : exn).
Arguments Ok {A} a.
Arguments Raise {A} e.

(** ** The working directory *)

(** A regular file: whether the user may open it for reading, and its
    bytes. *)
Record file : Type := mkFile {
  f_readable : bool;
  f_bytes : string
}.

(** An entry of a directory: a regular file, a directory that the user
    may list and search, or a directory that the user may neither list
    nor search, whose inside cannot be observed. *)
#[warnings="-register-all"] Inductive node : Type :=
| File (nm : string) (f : file)
| Dir (nm : string) (children : list node)
| LockedDir (nm : string).

Definition node_name (n : node) : string :=
  match n with
  | File nm _ => nm
  | Dir nm _ => nm
  | LockedDir nm => nm
  end.

Fixpoint lookup (nm : string) (entries : list node) : option node :=
  match entries with
  | [] => None
  | n :: rest => if node_name n =? nm then Some n else lookup nm rest
  end.

(** ** Text encodings

    The decoding function of a codec with [errors='strict']: from bytes to
    text, [None] where the codec raises [UnicodeDecodeError]. *)

Definition codec : Type := string -> option string.

Module codecs.

Definition between (lo hi : nat) (b : ascii) : bool :=
  Nat.leb lo (nat_of_ascii b) && Nat.leb (nat_of_ascii b) hi.

Definition continuation (b : ascii) : bool := between 128 191 b.

(** Well-formed UTF-8: no overlong form, no surrogate, nothing above
    U+10FFFF, no sequence cut short. *)
Fixpoint well_formed (s : string) : bool :=
  match s with
  | EmptyString => true
  | String b0 s1 =>
      if between 0 127 b0 then well_formed s1
      else
        match s1 with
        | EmptyString => false
        | String b1 s2 =>
            if between 194 223 b0 then continuation b1 && well_formed s2
            else
              match s2 with
              | EmptyString => false
              | String b2 s3 =>
                  if between 224 224 b0 then
                    between 160 191 b1 && continuation b2 && well_formed s3
                  else if between 225 236 b0 || between 238 239 b0 then
                    continuation b1 && continuation b2 && well_formed s3
                  else if between 237 237 b0 then
                    between 128 159 b1 && continuation b2 && well_formed s3
                  else
                    match s3 with
                    | EmptyString => false
                    | String b3 s4 =>
                        if between 240 240 b0 then
                          between 144 191 b1 && continuation b2 &&
                          continuation b3 && well_formed s4
                        else if between 241 243 b0 then
                          continuation b1 && continuation b2 &&
                          continuation b3 && well_formed s4
                        else if between 244 244 b0 then
                          between 128 143 b1 && continuation b2 &&
                          continuation b3 && well_formed s4
                        else false
                    end
              end
        end
  end.

(** [utf-8]: the text of well-formed bytes is those bytes. *)
Definition utf_8 : codec :=
  fun bytes => if well_formed bytes then Some bytes else None.

Fixpoint seven_bit (s : string) : bool :=
  match s with
  | EmptyString => true
  | String b rest => between 0 127 b && seven_bit rest
  end.

(** [ascii] *)
Definition us_ascii : codec :=
  fun bytes => if seven_bit bytes then Some bytes else None.

(** [latin-1]: every byte is the code point of that number. *)
Fixpoint latin_1_text (bytes : string) : string :=
  match bytes with
  | EmptyString => EmptyString
  | String b rest =>
      let n := nat_of_ascii b in
      if Nat.ltb n 128 then String b (latin_1_text rest)
      else String (ascii_of_nat (192 + n / 64))
                  (String (ascii_of_nat (128 + n mod 64)) (latin_1_text rest))
  end.

Definition latin_1 : codec := fun bytes => Some (latin_1_text bytes).

End codecs.

Definition CR : ascii := "013"%char.
Definition LF : ascii := "010"%char.

(** Universal newlines, as a file opened for reading without [newline=]
    has them: CR LF and a CR on its own both become LF. *)
Fixpoint translate_newlines (s : string) : string :=
  match s with
  | EmptyString => EmptyString
  | String c rest =>
      if Ascii.eqb c CR then
        match rest with
        | String c' rest' =>
            if Ascii.eqb c' LF then String LF (translate_newlines rest')
            else String LF (translate_newlines rest)
        | EmptyString => String LF EmptyString
        end
      else String c (translate_newlines rest)
  end.

(** ** The keyword arguments of [setuptools.setup] *)

Record setup_kwargs : Type := mkKwargs {
  name : string;
  version : string;
  scripts : list string;
  author : string;
  author_email : string;
  description : string;
  long_description : string;
  long_description_content_type : string;
  url : string;
  packages : list string;
  classifiers : list string
}.

(** ** The world a run starts from

    [cwd] is the directory the script runs in.  [environ] is the process
    environment.  [getpreferredencoding] is the rule by which this
    interpreter and its C library pick, from the environment, the codec
    of a file opened in text mode without [encoding=].
    [setuptools_installed] and [setup_outcome] stand for the packaging
    library, which is not part of the repository: whether the import
    finds it, and how its [setup] ends for given arguments ([None] when
    it returns). *)

Record world : Type := mkWorld {
  cwd : list node;
  environ : list (string * string);
  getpreferredencoding : list (string * string) -> codec;
  setuptools_installed : bool;
  setup_outcome : setup_kwargs -> option exn
}.

(** ** Interpreter state *)

(** A text file object: the bytes of the file it was opened on, the codec
    fixed when it was opened, the offset in the bytes, and whether it has
    been closed. *)
Record open_file : Type := mkOpenFile {
  of_path : string;
  of_data : string;
  of_encoding : codec;
  of_pos : nat;
  of_closed : bool
}.

Inductive event : Type :=
| EImport (module : string) (found : bool)
| EOpen (path mode : string) (r : exn + nat)
| ERead (fh : nat) (r : exn + string)
| EClose (fh : nat)
| EFindPackages (r : list string)
| ESetup (kw : setup_kwargs).

Record state : Type := mkState {
  files : list open_file;
  trace : list event
}.

Definition init_state : state := {| files := []; trace := [] |}.

Definition emit (e : event) (st : state) : state :=
  {| files := files st; trace := trace st ++ [e] |}.

Fixpoint set_nth {A : Type} (i : nat) (x : A) (l : list A) : list A :=
  match l, i with
  | [], _ => []
  | _ :: t, O => x :: t
  | h :: t, S j => h :: set_nth j x t
  end.

(** ** The monad *)

Definition M (A : Type) : Type := world -> state -> result A * state.

Definition ret {A : Type} (a : A) : M A := fun _ st => (Ok a, st).

Definition bind {A B : Type} (m : M A) (k : A -> M B) : M B :=
  fun w st =>
    match m w st with
    | (Ok a, st1) => k a w st1
    | (Raise e, st1) => (Raise e, st1)
    end.

Definition raise {A : Type} (e : exn) : M A := fun _ st => (Raise e, st).

Declare Scope py_scope.
Delimit Scope py_scope with py.
Notation "x <- c1 ;; c2" := (bind c1 (fun x => c2))
  (at level 61, c1 at next level, right associativity) : py_scope.
Notation "c1 ;; c2" := (bind c1 (fun _ => c2))
  (at level 61, right associativity) : py_scope.
Local Open Scope py_scope.

(** ** Built-ins used by the script *)

(** [import setuptools] *)
Definition import_module (module : string) : M unit :=
  fun w st =>
    if (module =? "setuptools") && setuptools_installed w
    then (Ok tt, emit (EImport module true) st)
    else (Raise (ModuleNotFoundError module), emit (EImport module false) st).

(** What [open(path, 'r')] finds for a path of one component: the bytes
    of a regular file that may be read, or the error of the system call. *)
Definition open_check (path : string) (entries : list node) : exn + string :=
  match lookup path entries with
  | None => inl (FileNotFoundError path)
  | Some (Dir _ _) => inl (IsADirectoryError path)
  | Some (LockedDir _) => inl (PermissionError path)
  | Some (File _ f) =>
      if f_readable f then inr (f_bytes f) else inl (PermissionError path)
  end.

(** [open(path, 'r')]: no [encoding=] is given, so the codec is the one
    the interpreter prefers in this environment; the new file object is
    the next entry of the table. *)
Definition open_r (path : string) : M nat :=
  fun w st =>
    match open_check path (cwd w) with
    | inl e => (Raise e, emit (EOpen path "r" (inl e)) st)
    | inr bytes =>
        let fh := List.length (files st) in
        (Ok fh,
         {| files := files st ++
                     [mkOpenFile path bytes (getpreferredencoding w (environ w))
                                 0 false];
            trace := trace st ++ [EOpen path "r" (inr fh)] |})
    end.

(** [fh.read()] without a size: all the bytes from the offset to the end
    are taken, which leaves the offset at the end; they are decoded with
    the codec of the file object, and the newlines of the text are
    translated. *)
Definition read (fh : nat) : M string :=
  fun _ st =>
    match nth_error (files st) fh with
    | None => (Raise (ValueError "bad file object"), st)
    | Some f =>
        if of_closed f then
          let e := ValueError "I/O operation on closed file." in
          (Raise e, emit (ERead fh (inl e)) st)
        else
          let raw := substring (of_pos f) (String.length (of_data f) - of_pos f)
                               (of_data f) in
          let at_end := mkOpenFile (of_path f) (of_data f) (of_encoding f)
                                   (String.length (of_data f)) false in
          match of_encoding f raw with
          | None =>
              (Raise UnicodeDecodeError,
               {| files := set_nth fh at_end (files st);
                  trace := trace st ++ [ERead fh (inl UnicodeDecodeError)] |})
          | Some decoded =>
              let t := translate_newlines decoded in
              (Ok t,
               {| files := set_nth fh at_end (files st);
                  trace := trace st ++ [ERead fh (inr t)] |})
          end
    end.

(** [fh.close()] *)
Definition close (fh : nat) : M unit :=
  fun _ st =>
    match nth_error (files st) fh with
    | None => (Raise (ValueError "bad file object"), st)
    | Some f =>
        (Ok tt,
         {| files := set_nth fh (mkOpenFile (of_path f) (of_data f) (of_encoding f)
                                            (of_pos f) true)
                             (files st);
            trace := trace st ++ [EClose fh] |})
    end.

(** [with open(path, 'r') as fh: body].  When [open] raises there is no
    file object and the body does not run.  Otherwise the body runs, the
    file object is closed on the way out whether or not the body raised,
    and the body's result or exception is what the statement gives. *)
Definition with_open {A : Type} (path : string) (body : nat -> M A) : M A :=
  fun w st =>
    match open_r path w st with
    | (Raise e, st1) => (Raise e, st1)
    | (Ok fh, st1) =>
        match body fh w st1 with
        | (r, st2) => (r, snd (close fh w st2))
        end
    end.

(** ** [setuptools.find_packages]

    The library function is not part of the repository.  This is its
    documented behaviour for the call the script makes, with the default
    arguments [where='.'], [exclude=()], [include=('*',)]: walk the
    directory top down; a directory is a package when its name has no dot
    and it holds a regular file [__init__.py]; only packages are descended
    into; the dotted path of each package is reported unless it is
    [ez_setup] or ends in [__pycache__].  A directory that may not be
    searched shows no [__init__.py], so it is no package. *)

Module PackageFinder.

Fixpoint contains (c : ascii) (s : string) : bool :=
  match s with
  | EmptyString => false
  | String a rest => Ascii.eqb a c || contains c rest
  end.

Definition ends_with (suffix s : string) : bool :=
  Nat.leb (String.length suffix) (String.length s) &&
  (substring (String.length s - String.length suffix) (String.length suffix) s
     =? suffix).

Definition _looks_like_package (children : list node) : bool :=
  existsb (fun n => match n with
                    | File nm _ => nm =? "__init__.py"
                    | Dir _ _ => false
                    | LockedDir _ => false
                    end) children.

(** [rel_path.replace(os.path.sep, '.')] *)
Definition qualify (prefix dir : string) : string :=
  if prefix =? "" then dir else (prefix ++ "." ++ dir)%string.

Definition exclude (package : string) : bool :=
  (package =? "ez_setup") || ends_with "__pycache__" package.

Definition include (package : string) : bool := true.

(** The directories of one level that the walk keeps. *)
Definition kept (n : node) : bool :=
  match n with
  | File _ _ => false
  | Dir dir children =>
      negb (contains "."%char dir) && _looks_like_package children
  | LockedDir _ => false
  end.

(** What one iteration of the [os.walk] loop yields for [root]. *)
Definition yields (prefix : string) (entries : list node) : list string :=
  flat_map (fun n =>
              if kept n then
                let package := qualify prefix (node_name n) in
                if include package && negb (exclude package)
                then [package] else []
              else []) entries.

(** The iterations for everything below one entry of [root]. *)
Fixpoint below (prefix : string) (n : node) {struct n} : list string :=
  match n with
  | File _ _ => []
  | Dir dir children =>
      if kept n then
        let package := qualify prefix dir in
        yields package children ++ flat_map (below package) children
      else []
  | LockedDir _ => []
  end.

Definition _find_packages_iter (entries : list node) : list string :=
  yields "" entries ++ flat_map (below "") entries.

Definition find (entries : list node) : list string :=
  _find_packages_iter entries.

End PackageFinder.

(** [setuptools.find_packages()] *)
Definition find_packages : M (list string) :=
  fun w st =>
    let r := PackageFinder.find (cwd w) in
    (Ok r, emit (EFindPackages r) st).

(** [setuptools.setup(...)] with the keyword arguments [kw] *)
Definition setup (kw : setup_kwargs) : M unit :=
  fun w st =>
    match setup_outcome w kw with
    | None => (Ok tt, emit (ESetup kw) st)
    | Some e => (Raise e, emit (ESetup kw) st)
    end.

(** ** The script *)

Definition setup_py : M unit :=
  import_module "setuptools" ;;
  LONG_DESCRIPTION <- with_open "README.md" (fun fh => read fh) ;;
  found <- find_packages ;;
  setup {| name := "px-totp";
           version := "0.0.1";
           scripts := ["px-totp"];
           author := "P. H.";
           author_email := "px-totp.perfide@safersignup.de";
           description := "Time-based One-Time Password Generator";
           long_description := LONG_DESCRIPTION;
           long_description_content_type := "text/markdown";
           url := "https://github.com/perfide/px-totp";
           packages := found;
           classifiers := [ "Programming Language :: Python :: 3";
                            "License :: OSI Approved :: BSD License";
                            "Operating System :: OS Independent" ] |}.

Definition run (w : world) : result unit * state := setup_py w init_state.

Definition outcome (w : world) : result unit := fst (run w).
Definition events (w : world) : list event := trace (snd (run w)).
Definition final_files (w : world) : list open_file := files (snd (run w)).

(** * Properties *)

(** ** Vocabulary of the statements *)

(** The record the script builds, as a function of the two values that
    are not literals. *)
Definition kwargs_for (text : string) (found : list string) : setup_kwargs :=
  mkKwargs "px-totp" "0.0.1" ["px-totp"] "P. H."
           "px-totp.perfide@safersignup.de"
           "Time-based One-Time Password Generator"
           text "text/markdown" "https://github.com/perfide/px-totp" found
           [ "Programming Language :: Python :: 3";
             "License :: OSI Approved :: BSD License";
             "Operating System :: OS Independent" ].

(** The codec that [open] picks in this world. *)
Definition decoder (w : world) : codec := getpreferredencoding w (environ w).

(** The bytes of [README.md] when the directory has it as a regular file
    that may be read. *)
Definition readme_bytes (entries : list node) : option string :=
  match lookup "README.md" entries with
  | Some (File _ f) => if f_readable f then Some (f_bytes f) else None
  | _ => None
  end.

(** The text of [README.md] in this world: its bytes decoded with the
    preferred codec, newlines translated; nothing when the file cannot be
    had or its bytes do not decode. *)
Definition readme_text (w : world) : option string :=
  match readme_bytes (cwd w) with
  | Some bytes => option_map translate_newlines (decoder w bytes)
  | None => None
  end.

Fixpoint has_cr (s : string) : bool :=
  match s with
  | EmptyString => false
  | String c rest => Ascii.eqb c CR || has_cr rest
  end.

(** The run read the description file and got [text]. *)
Definition read_succeeds (w : world) (text : string) : Prop :=
  exists fh, In (ERead fh (inr text)) (events w).

(** The run tried to open or to read the description file and that raised [e]. *)
Definition read_fails (w : world) (e : exn) : Prop :=
  In (EOpen "README.md" "r" (inl e)) (events w) \/
  exists fh, In (ERead fh (inl e)) (events w).

Definition fails (w : world) : Prop := exists e, outcome w = Raise e.

Fixpoint setup_calls (tr : list event) : list setup_kwargs :=
  match tr with
  | [] => []
  | ESetup kw :: rest => kw :: setup_calls rest
  | _ :: rest => setup_calls rest
  end.

Fixpoint remove_handle (fh : nat) (l : list nat) : list nat :=
  match l with
  | [] => []
  | h :: t => if Nat.eqb h fh then remove_handle fh t else h :: remove_handle fh t
  end.

(** The file objects that a trace leaves open. *)
Definition open_handles (tr : list event) : list nat :=
  fold_left (fun acc e =>
               match e with
               | EOpen _ _ (inr fh) => acc ++ [fh]
               | EClose fh => remove_handle fh acc
               | _ => acc
               end) tr [].


(** ** Example worlds *)

Fixpoint getenv (key : string) (env : list (string * string)) : option string :=
  match env with
  | [] => None
  | (k, v) :: rest => if k =? key then Some v else getenv key rest
  end.

Definition env_is (key value : string) (env : list (string * string)) : bool :=
  match getenv key env with
  | Some v => v =? value
  | None => false
  end.

(** The rule of the interpreter of the examples, a CPython 3.7 or later
    on a machine that has the locale en_US.ISO-8859-1, on the
    environments the examples use: UTF-8, unless the UTF-8 mode is
    switched off with PYTHONUTF8=0 and LC_ALL names the Latin-1 locale
    or the C locale. *)
Definition cpython_encoding (env : list (string * string)) : codec :=
  if env_is "PYTHONUTF8" "0" env then
    if env_is "LC_ALL" "en_US.ISO-8859-1" env then codecs.latin_1
    else if env_is "LC_ALL" "C" env then codecs.us_ascii
    else codecs.utf_8
  else codecs.utf_8.

(** The repository checked out with its description file, the same
    directory without it, one whose description file does not decode, and
    one with a package directory added. *)
Definition plain (s : string) : file := mkFile true s.

Definition checkout : list node :=
  [ File "README.md" (plain "# px-totp");
    File "px-totp" (plain "#!/usr/bin/env python");
    File "setup.py" (plain "import setuptools") ].

Definition checkout_world : world :=
  mkWorld checkout [("HOME", "/root")] cpython_encoding true (fun _ => None).

Definition bare_world : world :=
  mkWorld [ File "px-totp" (plain "#!/usr/bin/env python");
            File "setup.py" (plain "import setuptools") ]
          [] cpython_encoding true (fun _ => None).

(** Eleven bytes, the last two of which no UTF-8 text has. *)
Definition garbled : string :=
  ("# px-totp" ++ String "255"%char (String "254"%char ""))%string.

Definition garbled_world : world :=
  mkWorld [ File "README.md" (plain garbled) ] [] cpython_encoding true
          (fun _ => None).

Definition packaged_world : world :=
  mkWorld (checkout ++ [ Dir "px_totp" [ File "__init__.py" (plain "") ] ])
          [] cpython_encoding true (fun _ => None).

(** ** Further vocabulary *)

(** The shape of a directory entry: its name and nesting, with the
    contents and the permissions of every file forgotten. *)
Fixpoint erase (n : node) : node :=
  match n with
  | File nm _ => File nm (mkFile true "")
  | Dir nm children => Dir nm (map erase children)
  | LockedDir nm => LockedDir nm
  end.

(** Two argument records that differ at most in [long_description]. *)
Definition same_but_long_description (kw1 kw2 : setup_kwargs) : Prop :=
  name kw1 = name kw2 /\
  version kw1 = version kw2 /\
  scripts kw1 = scripts kw2 /\
  author kw1 = author kw2 /\
  author_email kw1 = author_email kw2 /\
  description kw1 = description kw2 /\
  long_description_content_type kw1 = long_description_content_type kw2 /\
  url kw1 = url kw2 /\
  packages kw1 = packages kw2 /\
  classifiers kw1 = classifiers kw2.

(** The checkout on a machine without setuptools; with every file edited;
    with a directory in the place of the description file, one that may
    be listed and one that may not; with a description file that may not
    be opened; with an empty description file; and with a library whose
    [setup] stops for want of a command. *)
Definition unprovisioned_world : world :=
  mkWorld checkout [] cpython_encoding false (fun _ => None).

Definition edited_world : world :=
  mkWorld [ File "README.md" (plain "# px-totp, second edition");
            File "px-totp" (mkFile false "#!/usr/bin/env python3");
            File "setup.py" (plain garbled) ]
          [] cpython_encoding true (fun _ => None).

Definition directory_world : world :=
  mkWorld [ Dir "README.md" [ File "index.md" (plain "# px-totp") ] ]
          [] cpython_encoding true (fun _ => None).

Definition locked_directory_world : world :=
  mkWorld [ LockedDir "README.md" ] [] cpython_encoding true (fun _ => None).

Definition forbidden_world : world :=
  mkWorld [ File "README.md" (mkFile false "# px-totp") ]
          [] cpython_encoding true (fun _ => None).


Definition no_command_world : world :=
  mkWorld checkout [] cpython_encoding true
          (fun _ => Some (SystemExit "error: no commands supplied")).

(** A description file of 29 bytes with three CR LF line ends. *)
Definition crlf : string := String CR (String LF "").

Definition crlf_readme : string :=
  ("# px-totp" ++ crlf ++ crlf ++ "TOTP generator" ++ crlf)%string.

Definition crlf_world : world :=
  mkWorld [ File "README.md" (plain crlf_readme) ] [] cpython_encoding true
          (fun _ => None).






(** ** The four shapes of a run *)

Inductive run_shape (w : world) : Prop :=
| NoLibrary :
    setuptools_installed w = false ->
    run w = (Raise (ModuleNotFoundError "setuptools"),
             mkState [] [EImport "setuptools" false]) ->
    run_shape w
| OpenRaises (e : exn) :
    setuptools_installed w = true ->
    open_check "README.md" (cwd w) = inl e ->
    readme_text w = None ->
    run w = (Raise e,
             mkState [] [EImport "setuptools" true;
                         EOpen "README.md" "r" (inl e)]) ->
    run_shape w
| ReadRaises (bytes : string) :
    setuptools_installed w = true ->
    open_check "README.md" (cwd w) = inr bytes ->
    decoder w bytes = None ->
    readme_text w = None ->
    run w = (Raise UnicodeDecodeError,
             mkState [mkOpenFile "README.md" bytes (decoder w)
                                 (String.length bytes) true]
                     [EImport "setuptools" true;
                      EOpen "README.md" "r" (inr 0);
                      ERead 0 (inl UnicodeDecodeError);
                      EClose 0]) ->
    run_shape w
| Configured (bytes text : string) :
    setuptools_installed w = true ->
    open_check "README.md" (cwd w) = inr bytes ->
    option_map translate_newlines (decoder w bytes) = Some text ->
    readme_text w = Some text ->
    run w = (match setup_outcome w (kwargs_for text (PackageFinder.find (cwd w))) with
             | None => Ok tt
             | Some e => Raise e
             end,
             mkState [mkOpenFile "README.md" bytes (decoder w)
                                 (String.length bytes) true]
                     [EImport "setuptools" true;
                      EOpen "README.md" "r" (inr 0);
                      ERead 0 (inr text);
                      EClose 0;
                      EFindPackages (PackageFinder.find (cwd w));
                      ESetup (kwargs_for text (PackageFinder.find (cwd w)))]) ->
    run_shape w.

(** * Proofs *)

(** ** Runs on the example worlds *)

Example find_nested :
  PackageFinder.find
    [ Dir "pkg" [ File "__init__.py" (plain "");
                  Dir "sub" [ File "__init__.py" (plain "") ];
                  Dir "__pycache__" [ File "__init__.py" (plain "") ];
                  Dir "x.y" [ File "__init__.py" (plain "") ] ];
      File "README.md" (plain "text");
      Dir "other" [ File "__init__.py" (plain "") ];
      Dir "docs" [ File "index.md" (plain "") ] ]
  = ["pkg"; "other"; "pkg.sub"].
Proof. reflexivity. Qed.

Example run_checkout :
  run checkout_world
  = (Ok tt,
     mkState [mkOpenFile "README.md" "# px-totp" codecs.utf_8 9 true]
             [ EImport "setuptools" true;
               EOpen "README.md" "r" (inr 0);
               ERead 0 (inr "# px-totp");
               EClose 0;
               EFindPackages [];
               ESetup (kwargs_for "# px-totp" []) ]).
Proof. reflexivity. Qed.

Example run_bare :
  run bare_world
  = (Raise (FileNotFoundError "README.md"),
     mkState [] [ EImport "setuptools" true;
                  EOpen "README.md" "r" (inl (FileNotFoundError "README.md")) ]).
Proof. reflexivity. Qed.

Example run_garbled :
  run garbled_world
  = (Raise UnicodeDecodeError,
     mkState [mkOpenFile "README.md" garbled codecs.utf_8 11 true]
             [ EImport "setuptools" true;
               EOpen "README.md" "r" (inr 0);
               ERead 0 (inl UnicodeDecodeError);
               EClose 0 ]).
Proof. reflexivity. Qed.

Lemma substring_all (s : string) : substring 0 (String.length s) s = s.
Proof.
  induction s as [| a s IH]; simpl; [reflexivity | now rewrite IH].
Qed.

Lemma open_check_readme_bytes (entries : list node) :
  match open_check "README.md" entries with
  | inr bytes => readme_bytes entries = Some bytes
  | inl _ => readme_bytes entries = None
  end.
Proof.
  unfold open_check, readme_bytes.
  destruct (lookup "README.md" entries) as [[nm f | nm ch | nm] |];
    try reflexivity.
  destruct (f_readable f); reflexivity.
Qed.

Lemma run_shape_total (w : world) : run_shape w.
Proof.
  pose proof (open_check_readme_bytes (cwd w)) as Hbytes.
  destruct (setuptools_installed w) eqn:Hlib.
  - destruct (open_check "README.md" (cwd w)) as [e | bytes] eqn:Hopen.
    + apply (OpenRaises w e); auto.
      * unfold readme_text. now rewrite Hbytes.
      * unfold run, setup_py, bind, import_module, with_open, open_r.
        rewrite Hlib, Hopen. reflexivity.
    + destruct (decoder w bytes) as [decoded |] eqn:Hdec.
      * apply (Configured w bytes (translate_newlines decoded)); auto.
        -- now rewrite Hdec.
        -- unfold readme_text. now rewrite Hbytes, Hdec.
        -- unfold run, setup_py, bind, import_module, with_open, open_r.
           rewrite Hlib, Hopen. cbn.
           rewrite Nat.sub_0_r, substring_all.
           fold (decoder w). rewrite Hdec.
           unfold setup, find_packages, kwargs_for. cbn.
           destruct (setup_outcome w _); reflexivity.
      * apply (ReadRaises w bytes); auto.
        -- unfold readme_text. now rewrite Hbytes, Hdec.
        -- unfold run, setup_py, bind, import_module, with_open, open_r.
           rewrite Hlib, Hopen. cbn.
           rewrite Nat.sub_0_r, substring_all.
           fold (decoder w). rewrite Hdec. reflexivity.
  - apply NoLibrary; auto.
    unfold run, setup_py, bind, import_module.
    rewrite Hlib. reflexivity.
Qed.

Ltac by_shape w :=
  destruct (run_shape_total w)
    as [Hlib Hrun | e0 Hlib Hopen Htext Hrun
        | bytes0 Hlib Hopen Hdec Htext Hrun
        | bytes0 text0 Hlib Hopen Hdec Htext Hrun];
  unfold read_succeeds, read_fails, fails, outcome, events, final_files in *;
  rewrite Hrun in *; cbn [fst snd trace files setup_calls] in *.

(** Splits a membership in a literal trace into its cases and keeps the
    ones whose event has the right constructor. *)
Ltac in_trace :=
  repeat match goal with
         | H : exists _, _ |- _ => destruct H as [? H]
         | H : _ /\ _ |- _ => destruct H as [H ?]
         | H : In _ (_ :: _) |- _ => destruct H as [H | H]
         | H : In _ [] |- _ => destruct H
         | H : False |- _ => destruct H
         | H : _ \/ _ |- _ => destruct H as [H | H]
         | H : @eq event _ _ |- _ => first [discriminate H | injection H as H; subst]
         | H : @eq (sum _ _) _ _ |- _ => first [discriminate H | injection H as H; subst]
         end.

Lemma split_at {A : Type} (l pre post : list A) (x : A) :
  l = pre ++ x :: post ->
  nth_error l (List.length pre) = Some x /\
  pre = firstn (List.length pre) l /\
  post = skipn (S (List.length pre)) l.
Proof.
  intros ->. repeat split.
  - rewrite nth_error_app2, Nat.sub_diag by lia. reflexivity.
  - induction pre as [| a pre IH]; simpl; [reflexivity | now rewrite <- IH].
  - induction pre as [| a pre IH]; simpl; [reflexivity | exact IH].
Qed.

(** Finds where a given event sits in a literal trace. *)
Ltac locate H :=
  let n := fresh "n" in
  let Hn := fresh "Hn" in
  let Hpre := fresh "Hpre" in
  let Hpost := fresh "Hpost" in
  apply split_at in H as (Hn & Hpre & Hpost);
  match type of Hn with
  | nth_error _ ?len = _ => set (n := len) in *; clearbody n
  end;
  repeat (destruct n as [| n]; cbn in Hn; try discriminate Hn);
  cbn in Hpre, Hpost.

(** ** What a call of [setup] tells about the run *)

Lemma setup_event_inv (w : world) (kw : setup_kwargs) :
  In (ESetup kw) (events w) ->
  exists text,
    setuptools_installed w = true /\
    readme_text w = Some text /\
    kw = kwargs_for text (PackageFinder.find (cwd w)) /\
    events w = [ EImport "setuptools" true;
                 EOpen "README.md" "r" (inr 0);
                 ERead 0 (inr text);
                 EClose 0;
                 EFindPackages (PackageFinder.find (cwd w));
                 ESetup kw ].
Proof.
  intros H. by_shape w; in_trace. exists text0. auto.
Qed.



Lemma translate_newlines_no_cr (s : string) :
  has_cr s = false -> translate_newlines s = s.
Proof.
  induction s as [| c rest IH]; [reflexivity |].
  cbn [has_cr translate_newlines]. intros Hno.
  apply orb_false_iff in Hno as [Hc Hrest].
  rewrite Hc. now rewrite IH.
Qed.

(** ** Facts about the package search *)

Module PackageFinderFacts.
Import PackageFinder.

Lemma no_init_not_package (children : list node) :
  ~ In "__init__.py" (map node_name children) ->
  _looks_like_package children = false.
Proof.
  unfold _looks_like_package.
  induction children as [| n rest IH]; intros Hno; [reflexivity |].
  simpl in *. rewrite IH by tauto.
  destruct n as [nm f | nm ch | nm]; [| reflexivity | reflexivity].
  destruct (String.eqb_spec nm "__init__.py") as [-> | _]; [| reflexivity].
  exfalso. apply Hno. left. reflexivity.
Qed.

Lemma nothing_kept_nothing_found (entries : list node) :
  (forall n, In n entries -> kept n = false) -> find entries = [].
Proof.
  unfold find, _find_packages_iter, yields.
  induction entries as [| n rest IH]; intros Hnone; [reflexivity |].
  assert (Hrest : forall m, In m rest -> kept m = false)
    by (intros m Hm; apply Hnone; right; exact Hm).
  specialize (IH Hrest). apply app_eq_nil in IH as [IH1 IH2].
  assert (Hn : kept n = false) by (apply Hnone; left; reflexivity).
  cbn [flat_map]. rewrite IH1, IH2, Hn.
  destruct n as [nm f | nm ch | nm]; [reflexivity | | reflexivity].
  cbn [below]. rewrite Hn. reflexivity.
Qed.

Lemma no_init_nothing_found (entries : list node) :
  (forall dir children, In (Dir dir children) entries ->
                        ~ In "__init__.py" (map node_name children)) ->
  find entries = [].
Proof.
  intros Hno. apply nothing_kept_nothing_found.
  intros [nm f | nm ch | nm] Hin; [reflexivity | | reflexivity].
  cbn [kept]. rewrite (no_init_not_package ch) by (eapply Hno; eauto).
  apply andb_false_r.
Qed.

End PackageFinderFacts.

(** ** C1 *)

(** C1: in every run in which the read of README.md succeeds, setuptools.setup
    is called, and the name, version, scripts, author, author_email,
    description, long_description_content_type, url and classifiers it
    receives are the literals written in the script, the classifiers in the
    order written. *)
Theorem setup_receives_declared_metadata (w : world) (text : string) :
  read_succeeds w text ->
  exists kw,
    setup_calls (events w) = [kw] /\
    name kw = "px-totp" /\
    version kw = "0.0.1" /\
    scripts kw = ["px-totp"] /\
    author kw = "P. H." /\
    author_email kw = "px-totp.perfide@safersignup.de" /\
    description kw = "Time-based One-Time Password Generator" /\
    long_description_content_type kw = "text/markdown" /\
    url kw = "https://github.com/perfide/px-totp" /\
    classifiers kw = [ "Programming Language :: Python :: 3";
                       "License :: OSI Approved :: BSD License";
                       "Operating System :: OS Independent" ].
Proof.
  intros Hread. by_shape w; in_trace.
  eexists. split; [reflexivity |]. cbn. repeat split.
Qed.

Lemma setup_receives_declared_metadata_witness :
  exists kw,
    setup_calls (events checkout_world) = [kw] /\
    name kw = "px-totp" /\
    version kw = "0.0.1" /\
    scripts kw = ["px-totp"] /\
    author kw = "P. H." /\
    author_email kw = "px-totp.perfide@safersignup.de" /\
    description kw = "Time-based One-Time Password Generator" /\
    long_description_content_type kw = "text/markdown" /\
    url kw = "https://github.com/perfide/px-totp" /\
    classifiers kw = [ "Programming Language :: Python :: 3";
                       "License :: OSI Approved :: BSD License";
                       "Operating System :: OS Independent" ].
Proof.
  apply (setup_receives_declared_metadata checkout_world "# px-totp").
  exists 0. vm_compute. right. right. left. reflexivity.
Defined.

(** ** C2 *)

(** C2: when README.md is absent or cannot be read (it is missing, is a
    directory, may not be opened, or does not decode), the run ends in an
    exception, which is the one the open or the read raised whenever the
    script got as far as the open; setuptools.setup is not called, so in
    particular it is never called with an empty long description in place
    of the missing text. *)
Theorem missing_readme_fails (w : world) :
  readme_text w = None ->
  fails w /\
  setup_calls (events w) = [] /\
  (~ exists kw, In (ESetup kw) (events w) /\ long_description kw = "") /\
  (setuptools_installed w = true ->
   exists e, read_fails w e /\ outcome w = Raise e).
Proof.
  intros Hnone. by_shape w; try congruence.
  - repeat split; eauto; [intros H; in_trace | congruence].
  - repeat split; eauto.
    + intros H; in_trace.
    + intros _. exists e0. split; [left; simpl; auto | reflexivity].
  - repeat split; eauto.
    + intros H; in_trace.
    + intros _. exists UnicodeDecodeError.
      split; [right; exists 0; simpl; auto | reflexivity].
Qed.

Lemma missing_readme_fails_witness :
  fails bare_world /\
  setup_calls (events bare_world) = [] /\
  (~ exists kw, In (ESetup kw) (events bare_world) /\ long_description kw = "") /\
  (setuptools_installed bare_world = true ->
   exists e, read_fails bare_world e /\ outcome bare_world = Raise e).
Proof.
  apply (missing_readme_fails bare_world). reflexivity.
Defined.

(** ** C3 *)

(** How the library's own call ends is the library's business: when it
    raises, the script lets the exception through. *)
Remark library_failure_propagates (w : world) (text : string) (e : exn) :
  read_succeeds w text ->
  setup_outcome w (kwargs_for text (PackageFinder.find (cwd w))) = Some e ->
  outcome w = Raise e.
Proof.
  intros Hread Hout. by_shape w; in_trace. now rewrite Hout.
Qed.

(** C3 as written does not hold where the library stops the run: with no
    command given to it, setup raises although the description file was
    read without any error. *)
Lemma fails_though_read_succeeded :
  read_succeeds no_command_world "# px-totp" /\
  (forall e, ~ read_fails no_command_world e) /\
  fails no_command_world /\
  outcome no_command_world <> Ok tt.
Proof.
  split; [| split; [| split]].
  - exists 0. vm_compute. right. right. left. reflexivity.
  - intros e H. vm_compute in H. in_trace.
  - eexists. reflexivity.
  - discriminate.
Qed.

(** C3, amended: the script has no handler, so a run ends in an exception
    exactly when the import of setuptools fails, or the open or the read
    of README.md raises, or the library's setup raises, and the exception
    is the one of that statement.  When the import finds the library and
    its setup returns, the run ends in an exception exactly when the open
    or the read raised, and a run whose read succeeded ends normally. *)
Theorem failure_sources (w : world) :
  (fails w <->
   setuptools_installed w = false \/
   (exists e, read_fails w e) \/
   (exists kw e, In (ESetup kw) (events w) /\ setup_outcome w kw = Some e)) /\
  (setuptools_installed w = false ->
   outcome w = Raise (ModuleNotFoundError "setuptools")) /\
  (forall e, read_fails w e -> outcome w = Raise e) /\
  (forall kw e, In (ESetup kw) (events w) -> setup_outcome w kw = Some e ->
                outcome w = Raise e) /\
  (setuptools_installed w = true ->
   (forall kw, In (ESetup kw) (events w) -> setup_outcome w kw = None) ->
   (fails w <-> exists e, read_fails w e) /\
   (forall text, read_succeeds w text -> outcome w = Ok tt)).
Proof.
  by_shape w.
  - (* the import fails *)
    split; [| split; [| split; [| split]]].
    + split; [intros _; left; assumption | intros _; eexists; reflexivity].
    + reflexivity.
    + intros e H. in_trace.
    + intros kw e H. in_trace.
    + congruence.
  - (* the open raises *)
    split; [| split; [| split; [| split]]].
    + split; [intros _ | intros _; eexists; reflexivity].
      right. left. exists e0. left. simpl. auto.
    + congruence.
    + intros e H. in_trace. reflexivity.
    + intros kw e H. in_trace.
    + intros _ _. split.
      * split; [intros _ | intros _; eexists; reflexivity].
        exists e0. left. simpl. auto.
      * intros text H. in_trace.
  - (* the read raises *)
    split; [| split; [| split; [| split]]].
    + split; [intros _ | intros _; eexists; reflexivity].
      right. left. exists UnicodeDecodeError. right. exists 0. simpl. auto.
    + congruence.
    + intros e H. in_trace. reflexivity.
    + intros kw e H. in_trace.
    + intros _ _. split.
      * split; [intros _ | intros _; eexists; reflexivity].
        exists UnicodeDecodeError. right. exists 0. simpl. auto.
      * intros text H. in_trace.
  - (* setup is called *)
    split; [| split; [| split; [| split]]].
    + split.
      * intros [e He].
        destruct (setup_outcome w (kwargs_for text0 (PackageFinder.find (cwd w))))
          as [e' |] eqn:Hout; [| discriminate He].
        right. right. eexists. exists e'. split; [| exact Hout]. simpl. tauto.
      * intros [H | [H | H]]; [congruence | in_trace | in_trace].
        eexists. rewrite H0. reflexivity.
    + congruence.
    + intros e H. in_trace.
    + intros kw e H Hout. in_trace. now rewrite Hout.
    + intros _ Hret.
      rewrite (Hret (kwargs_for text0 (PackageFinder.find (cwd w))))
        by (simpl; tauto).
      split.
      * split; intros H; in_trace. discriminate H.
      * reflexivity.
Qed.

Lemma failure_sources_witness :
  (fails garbled_world <-> exists e, read_fails garbled_world e) /\
  (forall text, read_succeeds garbled_world text -> outcome garbled_world = Ok tt).
Proof.
  apply (proj2 (proj2 (proj2 (proj2 (failure_sources garbled_world)))));
    [reflexivity |].
  intros kw H. vm_compute in H. in_trace.
Defined.

(** ** C4 *)

(** C4 as written does not hold for a description file with CR LF line
    ends under UTF-8: the file has 29 bytes and setup receives 26
    characters, the three CR gone. *)
Lemma crlf_readme_not_passed_unmodified :
  readme_bytes (cwd crlf_world) = Some crlf_readme /\
  String.length crlf_readme = 29 /\
  exists text,
    read_succeeds crlf_world text /\
    setup_calls (events crlf_world) = [kwargs_for text []] /\
    String.length text = 26 /\
    text <> crlf_readme.
Proof.
  split; [reflexivity | split; [reflexivity |]].
  eexists. split; [| split; [| split]].
  - exists 0. vm_compute. right. right. left. reflexivity.
  - reflexivity.
  - reflexivity.
  - intros H. apply (f_equal String.length) in H. discriminate H.
Qed.

(** C4, amended: in every run in which the read succeeds, README.md was
    opened in mode 'r' and read up to its end; the text read is the bytes
    of the file decoded with the codec the interpreter prefers in the
    environment of the run, with every CR LF and every other CR turned
    into LF; and that text, unchanged by the script, is the
    long_description that setuptools.setup receives.  Where the bytes
    decode to themselves and hold no CR, it equals the contents of the
    file. *)
Theorem long_description_is_text_read (w : world) (text : string) :
  read_succeeds w text ->
  (exists bytes decoded fh f,
      readme_bytes (cwd w) = Some bytes /\
      decoder w bytes = Some decoded /\
      text = translate_newlines decoded /\
      In (EOpen "README.md" "r" (inr fh)) (events w) /\
      In (ERead fh (inr text)) (events w) /\
      nth_error (final_files w) fh = Some f /\
      of_data f = bytes /\
      of_pos f = String.length bytes) /\
  (exists kw, setup_calls (events w) = [kw] /\ long_description kw = text) /\
  (forall bytes,
      readme_bytes (cwd w) = Some bytes ->
      decoder w bytes = Some bytes ->
      has_cr bytes = false ->
      text = bytes).
Proof.
  intros Hread. by_shape w; in_trace.
  pose proof (open_check_readme_bytes (cwd w)) as Hbytes.
  rewrite Hopen in Hbytes.
  destruct (decoder w bytes0) as [decoded |] eqn:Hcodec; [| discriminate Hdec].
  injection Hdec as Hdec.
  split; [| split].
  - exists bytes0, decoded, 0. eexists. simpl. repeat split; eauto.
  - eexists. split; reflexivity.
  - intros bytes Hb Hid Hno.
    assert (bytes = bytes0) as -> by congruence.
    assert (decoded = bytes0) as -> by congruence.
    rewrite <- Hdec. now apply translate_newlines_no_cr.
Qed.

Lemma long_description_is_text_read_witness :
  (exists bytes decoded fh f,
      readme_bytes (cwd checkout_world) = Some bytes /\
      decoder checkout_world bytes = Some decoded /\
      "# px-totp" = translate_newlines decoded /\
      In (EOpen "README.md" "r" (inr fh)) (events checkout_world) /\
      In (ERead fh (inr "# px-totp")) (events checkout_world) /\
      nth_error (final_files checkout_world) fh = Some f /\
      of_data f = bytes /\
      of_pos f = String.length bytes) /\
  (exists kw, setup_calls (events checkout_world) = [kw] /\
              long_description kw = "# px-totp") /\
  (forall bytes,
      readme_bytes (cwd checkout_world) = Some bytes ->
      decoder checkout_world bytes = Some bytes ->
      has_cr bytes = false ->
      "# px-totp" = bytes).
Proof.
  apply (long_description_is_text_read checkout_world "# px-totp").
  exists 0. vm_compute. right. right. left. reflexivity.
Defined.

(** ** C5 *)

(** C5: a run calls setuptools.setup at most once, a run that ends
    normally calls it exactly once, and nothing happens after the call:
    the record built for it is never used again. *)
Theorem setup_called_at_most_once (w : world) :
  List.length (setup_calls (events w)) <= 1 /\
  (outcome w = Ok tt -> List.length (setup_calls (events w)) = 1) /\
  (forall pre kw post, events w = pre ++ ESetup kw :: post -> post = []).
Proof.
  by_shape w; (split; [simpl; lia | split]); try discriminate;
    try reflexivity; intros pre kw post H; locate H; assumption.
Qed.

Lemma setup_called_at_most_once_witness :
  List.length (setup_calls (events checkout_world)) = 1.
Proof.
  apply (proj1 (proj2 (setup_called_at_most_once checkout_world))).
  reflexivity.
Defined.

(** ** C6 *)




(** ** C7 *)



(** ** C8 *)

(** C8: the file object exists only around the read: the open, the read
    and the close are three consecutive effects, whatever the read gives;
    no file object is open when setuptools.setup is called; when the read
    raises the file object is closed all the same; and no run ends with a
    file object left open. *)
Theorem handle_scoped_to_read (w : world) :
  (forall fh r, In (ERead fh r) (events w) ->
     exists pre post,
       events w = pre ++ [EOpen "README.md" "r" (inr fh); ERead fh r; EClose fh]
                      ++ post) /\
  (forall pre kw post, events w = pre ++ ESetup kw :: post ->
                       open_handles pre = []) /\
  (forall fh e, In (ERead fh (inl e)) (events w) ->
     exists f, nth_error (final_files w) fh = Some f /\ of_closed f = true) /\
  open_handles (events w) = [] /\
  Forall (fun f => of_closed f = true) (final_files w).
Proof.
  split; [| split; [| split; [| split]]].
  - intros fh r H. by_shape w; in_trace.
    + exists [EImport "setuptools" true], []. reflexivity.
    + exists [EImport "setuptools" true]. eexists. reflexivity.
  - intros pre kw post H. by_shape w; locate H. subst pre. reflexivity.
  - intros fh e H. by_shape w; in_trace. eexists. split; reflexivity.
  - by_shape w; reflexivity.
  - by_shape w; repeat constructor.
Qed.

Lemma handle_scoped_to_read_witness :
  exists f, nth_error (final_files garbled_world) 0 = Some f /\ of_closed f = true.
Proof.
  apply (proj1 (proj2 (proj2 (handle_scoped_to_read garbled_world)))
           0 UnicodeDecodeError).
  vm_compute. right. right. left. reflexivity.
Defined.

(** ** C9 *)

(** C9: when the open or the read of README.md raises, the run ends with
    that exception and neither setuptools.find_packages nor
    setuptools.setup is called. *)
Theorem no_setup_after_failed_read (w : world) (e : exn) :
  read_fails w e ->
  outcome w = Raise e /\
  setup_calls (events w) = [] /\
  (forall kw, ~ In (ESetup kw) (events w)) /\
  (forall r, ~ In (EFindPackages r) (events w)).
Proof.
  intros Hfail. by_shape w; in_trace;
    (split; [reflexivity | split; [reflexivity | split]]);
    intros ? H; in_trace.
Qed.

Lemma no_setup_after_failed_read_witness :
  outcome garbled_world = Raise UnicodeDecodeError /\
  setup_calls (events garbled_world) = [] /\
  (forall kw, ~ In (ESetup kw) (events garbled_world)) /\
  (forall r, ~ In (EFindPackages r) (events garbled_world)).
Proof.
  apply (no_setup_after_failed_read garbled_world UnicodeDecodeError).
  right. exists 0. vm_compute. right. right. left. reflexivity.
Defined.

(** ** C10 *)

(** C10: the packages argument is what setuptools.find_packages() returns
    for the working directory of the run, computed during the run; two
    directories that differ only in a package directory give different
    values; a directory none of whose sub-directories holds an __init__.py
    gives the empty list, and so does the checkout of this repository. *)
Theorem packages_found_at_run_time :
  (forall w kw, In (ESetup kw) (events w) ->
     packages kw = PackageFinder.find (cwd w) /\
     In (EFindPackages (packages kw)) (events w)) /\
  (exists kw1 kw2,
     In (ESetup kw1) (events checkout_world) /\
     In (ESetup kw2) (events packaged_world) /\
     packages kw1 = [] /\ packages kw2 = ["px_totp"]) /\
  (forall w kw, In (ESetup kw) (events w) ->
     (forall dir children, In (Dir dir children) (cwd w) ->
                           ~ In "__init__.py" (map node_name children)) ->
     packages kw = []) /\
  (forall kw, In (ESetup kw) (events checkout_world) -> packages kw = []).
Proof.
  split; [| split; [| split]].
  - intros w kw H. apply setup_event_inv in H as (text & _ & _ & -> & Hev).
    split; [reflexivity |]. rewrite Hev. simpl. tauto.
  - exists (kwargs_for "# px-totp" []), (kwargs_for "# px-totp" ["px_totp"]).
    repeat split; vm_compute; tauto.
  - intros w kw H Hno. apply setup_event_inv in H as (text & _ & _ & -> & _).
    cbn [packages kwargs_for]. now apply PackageFinderFacts.no_init_nothing_found.
  - intros kw H. apply setup_event_inv in H as (text & _ & _ & -> & _).
    reflexivity.
Qed.

Lemma packages_found_at_run_time_witness :
  packages (kwargs_for "# px-totp" ["px_totp"]) = PackageFinder.find (cwd packaged_world) /\
  In (EFindPackages (packages (kwargs_for "# px-totp" ["px_totp"])))
     (events packaged_world).
Proof.
  apply (proj1 packages_found_at_run_time packaged_world).
  vm_compute. do 5 right. left. reflexivity.
Defined.

(** * Further properties of the script *)

Lemma node_nested_ind (P : node -> Prop) :
  (forall nm f, P (File nm f)) ->
  (forall nm children, Forall P children -> P (Dir nm children)) ->
  (forall nm, P (LockedDir nm)) ->
  forall n, P n.
Proof.
  intros Hfile Hdir Hlocked. fix IH 1. intros [nm f | nm children | nm].
  - apply Hfile.
  - apply Hdir. induction children as [| c rest IHrest]; constructor.
    + apply IH.
    + exact IHrest.
  - apply Hlocked.
Qed.

Module EraseFacts.
Import PackageFinder.

Lemma node_name_erase (n : node) : node_name (erase n) = node_name n.
Proof. destruct n; reflexivity. Qed.

Lemma looks_like_package_erase (children : list node) :
  _looks_like_package (map erase children) = _looks_like_package children.
Proof.
  unfold _looks_like_package.
  induction children as [| c rest IH]; [reflexivity |].
  cbn [map existsb]. rewrite IH. destruct c; reflexivity.
Qed.

Lemma kept_erase (n : node) : kept (erase n) = kept n.
Proof.
  destruct n as [nm f | nm children | nm]; [reflexivity | | reflexivity].
  cbn [erase kept]. now rewrite looks_like_package_erase.
Qed.

Lemma yields_erase (prefix : string) (entries : list node) :
  yields prefix (map erase entries) = yields prefix entries.
Proof.
  unfold yields.
  induction entries as [| n rest IH]; [reflexivity |].
  cbn [map flat_map]. now rewrite IH, kept_erase, node_name_erase.
Qed.

Lemma below_erase (n : node) :
  forall prefix, below prefix (erase n) = below prefix n.
Proof.
  induction n as [nm f | nm children IH | nm] using node_nested_ind;
    intros prefix; [reflexivity | | reflexivity].
  change (erase (Dir nm children)) with (Dir nm (map erase children)).
  cbn [below].
  change (kept (Dir nm (map erase children)))
    with (kept (erase (Dir nm children))).
  rewrite kept_erase, yields_erase.
  destruct (kept (Dir nm children)); [| reflexivity].
  f_equal.
  induction IH as [| c rest Hc _ IHrest]; [reflexivity |].
  cbn [map flat_map]. now rewrite Hc, IHrest.
Qed.

Lemma find_erase (entries : list node) :
  find (map erase entries) = find entries.
Proof.
  unfold find, _find_packages_iter. rewrite yields_erase. f_equal.
  induction entries as [| n rest IH]; [reflexivity |].
  cbn [map flat_map]. now rewrite below_erase, IH.
Qed.

End EraseFacts.

(** X1: the import is the first statement.  On a machine where setuptools
    cannot be imported the run ends with ModuleNotFoundError for
    setuptools, whatever the directory holds, and README.md is not even
    opened: the failed import is the only effect. *)
Theorem import_failure_precedes_file_access (w : world) :
  setuptools_installed w = false ->
  outcome w = Raise (ModuleNotFoundError "setuptools") /\
  events w = [EImport "setuptools" false] /\
  final_files w = [].
Proof.
  intros Hmissing. by_shape w; try congruence. repeat split.
Qed.

Lemma import_failure_precedes_file_access_witness :
  outcome unprovisioned_world = Raise (ModuleNotFoundError "setuptools") /\
  events unprovisioned_world = [EImport "setuptools" false] /\
  final_files unprovisioned_world = [].
Proof.
  apply (import_failure_precedes_file_access unprovisioned_world). reflexivity.
Defined.





(** X4: the script has no handler around the setup call and ignores what
    it returns.  Once the read has succeeded the run ends as the library's
    setup ends, normally when it returns and with the library's own
    exception when it raises; in both cases setup was called with the
    record built from the text read, and no file object is open. *)
Theorem outcome_is_setup_outcome (w : world) (text : string) :
  read_succeeds w text ->
  outcome w = match setup_outcome w (kwargs_for text (PackageFinder.find (cwd w))) with
              | None => Ok tt
              | Some e => Raise e
              end /\
  setup_calls (events w) = [kwargs_for text (PackageFinder.find (cwd w))] /\
  open_handles (events w) = [].
Proof.
  intros Hread. by_shape w; in_trace. repeat split.
Qed.

Lemma outcome_is_setup_outcome_witness :
  outcome no_command_world = Raise (SystemExit "error: no commands supplied") /\
  setup_calls (events no_command_world) = [kwargs_for "# px-totp" []] /\
  open_handles (events no_command_world) = [].
Proof.
  apply (outcome_is_setup_outcome no_command_world "# px-totp").
  exists 0. vm_compute. right. right. left. reflexivity.
Defined.

(** X5: what files contain reaches setup only through long_description.
    Two runs over directories with the same names and nesting, whatever
    the contents and permissions of their files, pass records that differ
    at most in long_description; the packages in particular are the same. *)
Theorem contents_only_reach_long_description
        (w1 w2 : world) (kw1 kw2 : setup_kwargs) :
  map erase (cwd w1) = map erase (cwd w2) ->
  In (ESetup kw1) (events w1) ->
  In (ESetup kw2) (events w2) ->
  same_but_long_description kw1 kw2.
Proof.
  intros Hshape H1 H2.
  apply setup_event_inv in H1 as (t1 & _ & _ & -> & _).
  apply setup_event_inv in H2 as (t2 & _ & _ & -> & _).
  unfold same_but_long_description. cbn.
  repeat split.
  rewrite <- (EraseFacts.find_erase (cwd w1)), <- (EraseFacts.find_erase (cwd w2)).
  now rewrite Hshape.
Qed.

Lemma contents_only_reach_long_description_witness :
  same_but_long_description
    (kwargs_for "# px-totp" [])
    (kwargs_for "# px-totp, second edition" []).
Proof.
  apply (contents_only_reach_long_description checkout_world edited_world).
  - reflexivity.
  - vm_compute. do 5 right. left. reflexivity.
  - vm_compute. do 5 right. left. reflexivity.
Defined.


